(** * Protosequences2023: the HMM worker and the figure script

    A shallow embedding of [HMM_analysis_python/hmm_worker.py] and of the
    data-handling part of [GenericFigure.py], with the properties of the
    fitted-model cache and of the fitting job system that the
    specification states about them.

    Python code runs in an explicit state and may raise: a statement is a
    function from the state to the new state and either a value or the
    exception that left it.  Calls to collaborators that live outside the
    two scripts (the [hmmsupport] module, numpy, the standard library)
    are parameters of the sections below. *)

From Stdlib Require Import ZArith Lia Ascii String.
From stdpp Require Import base option list strings gmap pretty sorting.

Local Open Scope Z_scope.

(** ** Python values, exceptions and effects *)

Module Py.

(** The exception classes the two scripts can meet.  [OtherException]
    stands for any class that is none of the named ones. *)
Inductive exn : Type :=
  | ZeroDivisionError
  | ValueError
  | IndexError
  | KeyError
  | AttributeError
  | SystemExit (code : Z)
  | OtherException (cls : string).

#[global] Instance exn_eq_dec : EqDecision exn.
Proof. solve_decision. Defined.

(** What a call leaves behind: a value, or a raised exception. *)
Inductive result (A : Type) : Type :=
  | Ok (a : A)
  | Raise (e : exn).
Arguments Ok {A} a.
Arguments Raise {A} e.

Definition and_then {A B} (r : result A) (k : A -> result B) : result B :=
  match r with Ok a => k a | Raise e => Raise e end.

(** A list comprehension whose element expression may raise: the
    elements are evaluated in order and the first exception ends it. *)
Fixpoint comprehension {A B} (f : A -> result B) (l : list A) : result (list B) :=
  match l with
  | [] => Ok []
  | x :: l' =>
      and_then (f x) (fun y => and_then (comprehension f l') (fun ys => Ok (y :: ys)))
  end.

(** A computation over a state [S]. *)
Definition Eff (S A : Type) : Type := S -> S * result A.

Definition ret {S A} (a : A) : Eff S A := fun s => (s, Ok a).

Definition raise {S A} (e : exn) : Eff S A := fun s => (s, Raise e).

Definition bind {S A B} (m : Eff S A) (k : A -> Eff S B) : Eff S B :=
  fun s =>
    match m s with
    | (s', Ok a) => k a s'
    | (s', Raise e) => (s', Raise e)
    end.

(** [try: body except cls: handler]: the handler runs in the state the
    body left, for the exceptions [catches] selects; the others go on
    to the caller. *)
Definition try_except {S A} (body : Eff S A) (catches : exn -> bool)
    (handler : Eff S A) : Eff S A :=
  fun s =>
    match body s with
    | (s', Ok a) => (s', Ok a)
    | (s', Raise e) => if catches e then handler s' else (s', Raise e)
    end.

Definition modify {S} (f : S -> S) : Eff S unit := fun s => (f s, Ok tt).

Definition lift_result {S A} (r : result A) : Eff S A := fun s => (s, r).

(** A [for] loop that collects one value per element, in order (a list
    comprehension whose element expression has effects). *)
Fixpoint for_each {S A B} (f : A -> Eff S B) (l : list A) : Eff S (list B) :=
  match l with
  | [] => ret []
  | x :: l' =>
      bind (f x) (fun y => bind (for_each f l') (fun ys => ret (y :: ys)))
  end.

(** A [for] loop that updates an accumulator. *)
Fixpoint for_fold {S A B} (f : B -> A -> Eff S B) (l : list A) (b : B) : Eff S B :=
  match l with
  | [] => ret b
  | x :: l' => bind (f b x) (for_fold f l')
  end.

End Py.

Import Py.

Notation "'let*' x := m 'in' k" := (bind m (fun x => k))
  (at level 10, x name, m at level 100, k at level 200, only parsing).
Notation "'do*' m 'in' k" := (bind m (fun _ => k))
  (at level 10, m at level 100, k at level 200, only parsing).

(** ** hmm_worker.py *)

Module HmmWorker.

(** What the worker process does that can be observed: a line on standard
    output, and a call of [job.requeue()] with what it returned.  The
    last three are events of the dispatch loop [become_worker], not of
    [fit_hmm]. *)
Inductive event (J : Type) : Type :=
  | EvPrint (line : string)
  | EvRequeue (job : J) (returned : result bool)
  | EvLease (job : J)
  | EvComplete (job : J)
  | EvUnexpected (job : J) (e : exn).
Arguments EvPrint {J} line.
Arguments EvRequeue {J} job returned.
Arguments EvLease {J} job.
Arguments EvComplete {J} job.
Arguments EvUnexpected {J} job e.

(** [W] is the world outside the script: the queue the job came from,
    the model cache, the optimizer's random state. *)
Record state (W J : Type) : Type := State { world : W; trace : list (event J) }.
Arguments State {W J} world trace.
Arguments world {W J} s.
Arguments trace {W J} s.

Definition is_ZeroDivisionError (e : exn) : bool :=
  match e with ZeroDivisionError => true | _ => false end.

Definition requeue_calls {J} (tr : list (event J)) : list J :=
  omap (fun ev => match ev with EvRequeue j _ => Some j | _ => None end) tr.

Definition printed {J} (tr : list (event J)) : list string :=
  omap (fun ev => match ev with EvPrint l => Some l | _ => None end) tr.

Section FitHmm.

(** [J] is the job object handed to [fit_hmm]; [Params] its keyword
    arguments. *)
Context {W J Params : Type}.

(** [hmmsupport.get_fitted_hmm], called with the job's parameters as
    keyword arguments and a [verbose] flag: fits (and caches) the model;
    its return value is not used. *)
Variable get_fitted_hmm : Params -> bool -> W -> W * result unit.

(** [job.params] and [job.requeue()]. *)
Variable params : J -> Params.
Variable requeue : J -> W -> W * result bool.

Definition emit (ev : event J) : Eff (state W J) unit :=
  modify (fun s => State (world s) (trace s ++ [ev])).

Definition print (line : string) : Eff (state W J) unit := emit (EvPrint line).

(** A call into the outside world. *)
Definition call {A} (f : W -> W * result A) : Eff (state W J) A :=
  fun s => let '(w, r) := f (world s) in (State w (trace s), r).

Definition job_requeue (job : J) : Eff (state W J) bool :=
  fun s =>
    let '(w, r) := requeue job (world s) in
    (State w (trace s ++ [EvRequeue job r]), r).

(** hmm_worker.py, lines 3-12. *)
Definition fit_hmm (job : J) : Eff (state W J) unit :=
  try_except
    (call (get_fitted_hmm (params job) true))
    is_ZeroDivisionError
    (let* accepted := job_requeue job in
     if accepted : bool
     then print "Optimization failed, retrying."
     else print "Optimization failed.").

End FitHmm.

End HmmWorker.

(** ** The identity of a fitting task *)

(** The arguments that name one fitted model, in the order in which
    GenericFigure.py passes them to [Model]: source, experiment, bin
    size, number of states, surrogate, library. *)
Record ModelKey : Type := {
  key_source : string;
  key_experiment : string;
  key_bin_size_ms : Z;
  key_n_states : Z;
  key_surrogate : string;
  key_library : string
}.

#[global] Instance ModelKey_eq_dec : EqDecision ModelKey.
Proof. solve_decision. Defined.

#[global] Instance ModelKey_countable : Countable ModelKey.
Proof.
  refine (inj_countable'
    (fun k => (key_source k, key_experiment k, key_bin_size_ms k,
               key_n_states k, key_surrogate k, key_library k))
    (fun t => let '(s, e, b, n, u, l) := t in
              Build_ModelKey s e b n u l) _).
  by intros [].
Defined.

(** ** The job queue and the dispatch loop *)

Module JobQueue.

(** Modelled from the spec: the states of a Job (section 3).  [hmmsupport],
    which holds the queue behind [job.requeue()], is not among the
    sources.  "Requeued" is the transition back to [Pending]. *)
Inductive status : Type := Pending | Leased | Succeeded | Abandoned.

#[global] Instance status_eq_dec : EqDecision status.
Proof. solve_decision. Defined.

(** Modelled from the spec: a Job is a ModelKey, a verbose flag and an
    attempts counter (section 3); [job_status] is its place in the
    lifecycle. *)
Record Job : Type := {
  key : ModelKey;
  verbose : bool;
  attempts : nat;
  job_status : status
}.

Definition with_status (st : status) (j : Job) : Job :=
  {| key := key j; verbose := verbose j; attempts := attempts j;
     job_status := st |}.

Definition with_attempts (a : nat) (j : Job) : Job :=
  {| key := key j; verbose := verbose j; attempts := a;
     job_status := job_status j |}.

(** Modelled from the spec: the JobQueue of section 4.3 with its
    configured maximum.  A JobId is the job's position in [jobs]; a job
    that is destroyed keeps its row with its final status, so that its
    abandonment stays observable (section 7). *)
Record Queue : Type := {
  max_attempts : nat;
  jobs : list Job
}.

Definition with_jobs (js : list Job) (q : Queue) : Queue :=
  {| max_attempts := max_attempts q; jobs := js |}.

Definition status_of (q : Queue) (id : nat) : option status :=
  job_status <$> jobs q !! id.

Definition attempts_of (q : Queue) (id : nat) : option nat :=
  attempts <$> jobs q !! id.

(** Modelled from the spec: [enqueue(key, verbose) -> JobId] adds a
    Pending job; its counter starts at zero. *)
Definition enqueue (k : ModelKey) (v : bool) (q : Queue) : Queue * nat :=
  (with_jobs (jobs q ++ [ {| key := k; verbose := v; attempts := 0;
                             job_status := Pending |} ]) q,
   length (jobs q)).

Definition is_pending (j : Job) : bool :=
  bool_decide (job_status j = Pending).

(** The position of the first job that is Pending. *)
Fixpoint first_pending (js : list Job) : option nat :=
  match js with
  | [] => None
  | j :: js' => if is_pending j then Some 0%nat else S <$> first_pending js'
  end.

Definition set_row (id : nat) (j : Job) (q : Queue) : Queue :=
  with_jobs (<[id := j]> (jobs q)) q.

(** Modelled from the spec: [lease() -> Job | empty] moves one Pending
    job to Leased and returns it.  No order is promised; the first
    Pending one is taken here. *)
Definition lease (q : Queue) : Queue * option (nat * ModelKey) :=
  match first_pending (jobs q) with
  | None => (q, None)
  | Some id =>
      match jobs q !! id with
      | Some j => (set_row id (with_status Leased j) q, Some (id, key j))
      | None => (q, None)
      end
  end.

(** Modelled from the spec: [complete(jobId)] removes the job after a
    successful fit. *)
Definition complete (id : nat) (q : Queue) : Queue :=
  match jobs q !! id with
  | Some j =>
      if bool_decide (job_status j = Leased)
      then set_row id (with_status Succeeded j) q
      else q
  | None => q
  end.

(** Modelled from the spec: [requeue(jobId) -> accepted | rejected]
    "increments attempts; if attempts is still below the maximum,
    returns the job to Pending and reports accepted; otherwise moves it
    to Abandoned and reports rejected".  Accepted is [true].  Only the
    holder of a lease requeues: on a job that is not Leased nothing
    changes and the answer is [false]. *)
Definition requeue (id : nat) (q : Queue) : Queue * bool :=
  match jobs q !! id with
  | Some j =>
      if bool_decide (job_status j = Leased) then
        let a := S (attempts j) in
        if (a <? max_attempts q)%nat
        then (set_row id (with_status Pending (with_attempts a j)) q, true)
        else (set_row id (with_status Abandoned (with_attempts a j)) q, false)
      else (q, false)
  | None => (q, false)
  end.

(** Modelled from the spec: a failure outside the transient class is
    fatal for the job (section 4.4): it leaves the queue without another
    attempt. *)
Definition abandon (id : nat) (q : Queue) : Queue :=
  match jobs q !! id with
  | Some j =>
      if bool_decide (job_status j = Leased)
      then set_row id (with_status Abandoned j) q
      else q
  | None => q
  end.

(** The job object a worker holds while it has the lease. *)
Record handle : Type := Handle { job_id : nat; params : ModelKey }.

#[global] Instance handle_eq_dec : EqDecision handle.
Proof. solve_decision. Defined.

Section Worker.

(** [F] is the state of the Fitter (its random initialisation); [fit]
    is [hmmsupport.get_fitted_hmm]. *)
Context {F : Type}.
Variable fit : ModelKey -> bool -> F -> F * result unit.

Abbreviation wstate := (HmmWorker.state (F * Queue) handle).

Definition get_fitted_hmm (k : ModelKey) (v : bool) (w : F * Queue)
    : (F * Queue) * result unit :=
  let '(f', r) := fit k v (fst w) in ((f', snd w), r).

(** [job.requeue()] on the queue above. *)
Definition job_requeue (job : handle) (w : F * Queue)
    : (F * Queue) * result bool :=
  let '(q', accepted) := requeue (job_id job) (snd w) in
  ((fst w, q'), Ok accepted).

(** hmm_worker.py's [fit_hmm], on this queue. *)
Definition fit_hmm : handle -> Eff wstate unit :=
  HmmWorker.fit_hmm get_fitted_hmm params job_requeue.

(** Modelled from the spec: one iteration of the Worker's state machine
    (section 4.4), [Idle -> Leased -> Fitting -> ... -> Idle], with the
    callback [how] of [become_worker(what, how)] doing the fitting.
    [how] returning leaves the job Succeeded unless [how] gave the lease
    back itself; an exception that leaves [how] is written to the log as
    an unexpected failure of that job, and the job is not tried again.
    The result tells whether there was a job to lease. *)
Definition worker_iteration (how : handle -> Eff wstate unit) : Eff wstate bool :=
  fun s =>
    match lease (snd (HmmWorker.world s)) with
    | (_, None) => (s, Ok false)
    | (q1, Some (id, k)) =>
        let job := Handle id k in
        let s1 := HmmWorker.State (fst (HmmWorker.world s), q1)
                    (HmmWorker.trace s ++ [HmmWorker.EvLease job]) in
        match how job s1 with
        | (s2, Ok _) =>
            let '(f2, q2) := HmmWorker.world s2 in
            if bool_decide (status_of q2 id = Some Leased)
            then (HmmWorker.State (f2, complete id q2)
                    (HmmWorker.trace s2 ++ [HmmWorker.EvComplete job]), Ok true)
            else (s2, Ok true)
        | (s2, Raise e) =>
            let '(f2, q2) := HmmWorker.world s2 in
            (HmmWorker.State (f2, abandon id q2)
               (HmmWorker.trace s2 ++ [HmmWorker.EvUnexpected job e]), Ok true)
        end
    end.

(** Modelled from the spec: [become_worker(what, how)], the Worker's
    loop.  It ends, with [true], when a lease finds nothing Pending; it
    answers [false] when [fuel] iterations were not enough. *)
Fixpoint become_worker (fuel : nat) (how : handle -> Eff wstate unit)
    : Eff wstate bool :=
  match fuel with
  | O => ret false
  | S fuel' =>
      let* leased := worker_iteration how in
      if leased : bool then become_worker fuel' how else ret true
  end.

(** Iterations that are always enough: each one either ends a Pending
    job or raises its counter towards the maximum. *)
Definition weight (m : nat) (j : Job) : nat :=
  if is_pending j then S (m - attempts j) else 0.

Definition enough_fuel (q : Queue) : nat :=
  S (sum_list (weight (max_attempts q) <$> jobs q)).

(** How often the job [id] went back to Pending, and how often it was
    leased, according to the trace. *)
Definition requeued (id : nat) (tr : list (HmmWorker.event handle)) : nat :=
  length (List.filter
    (fun ev => match ev with
               | HmmWorker.EvRequeue j (Ok true) => bool_decide (job_id j = id)
               | _ => false
               end) tr).

Definition leases (id : nat) (tr : list (HmmWorker.event handle)) : nat :=
  length (List.filter
    (fun ev => match ev with
               | HmmWorker.EvLease j => bool_decide (job_id j = id)
               | _ => false
               end) tr).

(** What holds, between two iterations, of the job [id] with key [k]
    when fitting [k] always fails: it is Pending and has gone back to the
    queue once per attempt, or it is Abandoned with its attempts used
    up.  [r0] and [l0] count what the trace held at the start. *)
Definition failing_job_invariant (id : nat) (k : ModelKey) (m r0 l0 : nat)
    (s : wstate) : Prop :=
  exists j,
    jobs (snd (HmmWorker.world s)) !! id = Some j /\
    key j = k /\
    max_attempts (snd (HmmWorker.world s)) = m /\
    ((job_status j = Pending /\ (attempts j < m)%nat /\
      requeued id (HmmWorker.trace s) = (r0 + attempts j)%nat /\
      leases id (HmmWorker.trace s) = (l0 + attempts j)%nat)
     \/
     (job_status j = Abandoned /\ attempts j = m /\
      requeued id (HmmWorker.trace s) = (r0 + (m - 1))%nat /\
      leases id (HmmWorker.trace s) = (l0 + m)%nat)).

End Worker.

End JobQueue.

(** ** numpy arrays of integers *)

Module Numpy.

Inductive dtype : Type := int32 | int64.

Record ndarray : Type := NdArray { dtype_of : dtype; data : list Z }.

(** The C cast to a signed 32-bit integer. *)
Definition wrap32 (z : Z) : Z := (z + 2 ^ 31) mod 2 ^ 32 - 2 ^ 31.

(** What storing [z] in an array of type [dt] keeps.  The platform
    integer, int64, holds every index and every length of an array that
    exists, so only the narrowing to int32 is written out. *)
Definition cast (dt : dtype) (z : Z) : Z :=
  match dt with int32 => wrap32 z | int64 => z end.

(** [np.int32(values)]. *)
Definition np_int32 (values : list Z) : ndarray :=
  NdArray int32 (wrap32 <$> values).

(** [np.arange(n)]. *)
Definition arange (n : nat) : ndarray :=
  NdArray int64 (Z.of_nat <$> seq 0 n).

(** [np.zeros_like(a)]. *)
Definition zeros_like (a : ndarray) : ndarray :=
  NdArray (dtype_of a) (replicate (length (data a)) 0).

(** An index into an axis of length [len]: negative ones count from the
    end, anything else out of range is an IndexError. *)
Definition index (len : nat) (i : Z) : option nat :=
  if bool_decide (0 <= i < Z.of_nat len) then Some (Z.to_nat i)
  else if bool_decide (- Z.of_nat len <= i < 0) then Some (Z.to_nat (i + Z.of_nat len))
  else None.

(** The values of an assignment, stretched to the [n] places assigned. *)
Definition broadcast_to (n : nat) (vals : list Z) : option (list Z) :=
  if bool_decide (length vals = n) then Some vals
  else match vals with
       | [v] => Some (replicate n v)
       | _ => None
       end.

Definition store (dt : dtype) (a : list Z) (place : nat * Z) : list Z :=
  <[fst place := cast dt (snd place)]> a.

(** [a[idx] = vals] with an integer array as index: the places are
    assigned in order, so that the last assignment to a place stays.
    Nothing is assigned when the values do not fit the index
    (ValueError) or an index is out of range (IndexError). *)
Definition setitem (a : ndarray) (idx : list Z) (vals : list Z) : result ndarray :=
  match broadcast_to (length idx) vals with
  | None => Raise ValueError
  | Some vs =>
      match mapM (index (length (data a))) idx with
      | None => Raise IndexError
      | Some places =>
          Ok (NdArray (dtype_of a)
                (foldl (store (dtype_of a)) (data a) (zip places vs)))
      end
  end.

(** [a[i]] for a non-negative [i] in range. *)
Definition item (a : ndarray) (i : Z) : option Z :=
  match index (length (data a)) i with
  | Some n => data a !! n
  | None => None
  end.

(** [a[idx]] read through an integer array: one element per index, an
    IndexError when one of them is out of range. *)
Definition getitem (a : ndarray) (idx : list Z) : result ndarray :=
  match mapM (item a) idx with
  | Some values => Ok (NdArray (dtype_of a) values)
  | None => Raise IndexError
  end.

(** [a + k] for a Python integer [k]: the array keeps its type. *)
Definition add_scalar (a : ndarray) (k : Z) : ndarray :=
  NdArray (dtype_of a) ((fun v => cast (dtype_of a) (v + k)) <$> data a).

(** [np.where(a == x)[0]]: the positions of [x] in [a], ascending. *)
Fixpoint where_eq_from (start : nat) (a : list Z) (x : Z) : list Z :=
  match a with
  | [] => []
  | y :: a' =>
      (if bool_decide (y = x) then [Z.of_nat start] else [])
      ++ where_eq_from (S start) a' x
  end.

Definition where_eq (a : list Z) (x : Z) : list Z := where_eq_from 0 a x.

(** [a[0]] of a one-dimensional array. *)
Definition first_item (a : list Z) : result Z :=
  match a with
  | x :: _ => Ok x
  | [] => Raise IndexError
  end.

(** [l[i]] on a Python list. *)
Definition list_getitem {A} (l : list A) (i : Z) : result A :=
  match index (length l) i with
  | Some place =>
      match l !! place with
      | Some x => Ok x
      | None => Raise IndexError
      end
  | None => Raise IndexError
  end.

End Numpy.

(** ** GenericFigure.py *)

Module GenericFigure.

Import Numpy.

(** [s.split(sep)] for a separator of one character: one more field than
    there are separators in [s]. *)
Fixpoint split (sep : ascii) (s : string) : list string :=
  match s with
  | EmptyString => [""]
  | String c s' =>
      if Ascii.eqb c sep then "" :: split sep s'
      else match split sep s' with
           | field :: fields => String c field :: fields
           | [] => [String c ""]
           end
  end.

(** How often [sep] occurs in [s]. *)
Fixpoint count_char (sep : ascii) (s : string) : nat :=
  match s with
  | EmptyString => 0
  | String c s' => (if Ascii.eqb c sep then 1 else 0) + count_char sep s'
  end.

(** The unpacking [a, b, c = fields]. *)
Definition unpack3 {A} (fields : list A) : result (A * A * A) :=
  match fields with
  | [a; b; c] => Ok (a, b, c)
  | _ => Raise ValueError
  end.

Section ThreeInts.

(** Python's [int] on a string, [None] where it raises ValueError. *)
Variable int : string -> option Z.

Definition py_int (x : string) : result Z :=
  match int x with Some v => Ok v | None => Raise ValueError end.

(** GenericFigure.py, lines 16-18. *)
Definition three_ints (arg : string) : result (list Z) :=
  and_then (unpack3 (split "," arg)) (fun '(a, b, c) =>
    comprehension (fun x => and_then (py_int x) (fun v => Ok (v - 1))) [a; b; c]).

End ThreeInts.

(** The plain decimal numerals, with an optional sign, among the strings
    that [int] reads; the examples run [three_ints] on them. *)
Definition digit (c : ascii) : option Z :=
  let n := Z.of_nat (nat_of_ascii c) in
  if bool_decide (48 <= n <= 57) then Some (n - 48) else None.

Fixpoint digits (acc : Z) (s : string) : option Z :=
  match s with
  | EmptyString => Some acc
  | String c s' =>
      match digit c with
      | Some d => digits (10 * acc + d) s'
      | None => None
      end
  end.

Definition numeral (s : string) : option Z :=
  match s with
  | EmptyString => None
  | String "-" (String c s') => Z.opp <$> digits 0 (String c s')
  | String "+" (String c s') => digits 0 (String c s')
  | String "-" EmptyString | String "+" EmptyString => None
  | _ => digits 0 s
  end.

(** The command line, as [argparse] hands it over. *)
Record Args : Type := {
  args_source : string;
  args_experiments : string;
  args_base_exp : string;
  args_states : option (list Z);
  args_no_show : bool
}.

(** What the script does that can be observed. *)
Inductive event : Type :=
  | Stdout (line : string)
  | Stderr (line : string)
  | EvFigdir (name : string)
  | EvGetRaster (src exp : string) (bin : Z) (surrogate : string)
  | EvLookup (k : ModelKey)
  | EvFit (k : ModelKey)
  | EvStore (k : ModelKey)
  | EvComputeEntropy (k : ModelKey).

(** The collaborators of the script: the [hmmsupport] module, whose
    source is not part of this development, and the library functions
    whose results are floating-point numbers or text. *)
Class Environment : Type := {
  (** [hmmsupport.Raster], a fitted HMM, an array of floats, a float,
      the state of the optimizer. *)
  Raster : Type;
  Artifact : Type;
  Curve : Type;
  Real : Type;
  FitterState : Type;
  (** [fnmatch.fnmatch(name, pattern)]. *)
  fnmatch : string -> string -> bool;
  (** A list of strings formatted in an f-string. *)
  str_of_list : list string -> string;
  all_experiments : string -> list string;
  get_raster : string -> string -> Z -> string -> Raster;
  raster_N : Raster -> nat;
  set_burst_default_rms : Z -> Raster -> Raster;
  (** The line of lines 83-86, from the raster's rates and bursts. *)
  summary : string -> Raster -> string;
  (** The Fitter: [None] is a FitFailure. *)
  fit : ModelKey -> FitterState -> FitterState * option Artifact;
  retry_limit : nat;
  mean_entropy_of : Artifact -> Raster -> Curve;
  baseline_entropy_of : Artifact -> Raster -> Real;
  (** [np.array(curves).mean(axis=0)], [np.mean], [np.std]. *)
  mean_axis0 : list Curve -> Curve;
  np_mean : list Real -> Real;
  np_std : list Real -> Real;
  (** [load_metrics(exp, only_include=["mean_rate_ordering"])]: the
      flattened, one-based ordering, or [None] when the result is
      falsy. *)
  load_metrics : string -> option (list Z)
}.

Record state `{Environment} : Type := {
  cache : gmap ModelKey Artifact;
  fitter : FitterState;
  out : list event
}.

(** Modelled from the spec: the ModelHandle that [hmmsupport.Model(...)]
    returns (section 4.5).  [_hmm] is the cached artifact or [None]; the
    two entropy attributes are the derived statistics, present once
    [compute_entropy] has run (section 3). *)
Record Model `{Environment} : Type := {
  model_key : ModelKey;
  _hmm : option Artifact;
  mean_entropy : option Curve;
  baseline_entropy : option Real
}.

(** What went to standard error. *)
Definition stderr_lines (tr : list event) : list string :=
  omap (fun ev => match ev with Stderr line => Some line | _ => None end) tr.

Section Script.

Context `{Env : Environment}.

Definition emit (ev : event) : Eff state unit :=
  modify (fun s => {| cache := cache s; fitter := fitter s; out := out s ++ [ev] |}).

(** [print(line)] and [print(line, file=sys.stderr)]. *)
Definition print (line : string) : Eff state unit := emit (Stdout line).
Definition eprint (line : string) : Eff state unit := emit (Stderr line).

(** [sys.exit(code)]. *)
Definition sys_exit {A} (code : Z) : Eff state A := raise (SystemExit code).

(** Modelled from the spec: [get_or_none(key)] "checks ModelCache only;
    never computes" (section 4.5). *)
Definition get_or_none (k : ModelKey) : Eff state (option Artifact) :=
  fun s =>
    ({| cache := cache s; fitter := fitter s; out := out s ++ [EvLookup k] |},
     Ok (cache s !! k)).

(** Modelled from the spec: the synchronous mode "calls the Fitter
    directly, attempts retries locally up to the same bounded count"
    (section 4.5). *)
Fixpoint fit_retrying (tries : nat) (k : ModelKey) : Eff state (option Artifact) :=
  match tries with
  | O => ret None
  | S tries' =>
      fun s =>
        let '(f', fitted) := fit k (fitter s) in
        let s' := {| cache := cache s; fitter := f'; out := out s ++ [EvFit k] |} in
        match fitted with
        | Some a => (s', Ok (Some a))
        | None => fit_retrying tries' k s'
        end
  end.

(** Modelled from the spec: [get_or_compute] "stores the result if
    successful" (section 4.5). *)
Definition get_or_compute (k : ModelKey) : Eff state (option Artifact) :=
  let* fitted := fit_retrying retry_limit k in
  match fitted with
  | Some a =>
      do* modify (fun s => {| cache := <[k := a]> (cache s); fitter := fitter s;
                              out := out s ++ [EvStore k] |}) in
      ret (Some a)
  | None => ret None
  end.

(** Modelled from the spec: [Model(source, exp, bin_size_ms, n, surr,
    library=..., recompute_ok=...)], the ModelHandle's constructor
    (section 4.5): the cached artifact if there is one, and a fit only
    where the caller permits computing. *)
Definition new_Model (k : ModelKey) (recompute_ok : bool) : Eff state Model :=
  let* found := get_or_none k in
  let* hmm :=
    match found with
    | Some a => ret (Some a)
    | None => if recompute_ok then get_or_compute k else ret None
    end in
  ret {| model_key := k; _hmm := hmm; mean_entropy := None;
         baseline_entropy := None |}.

(** Modelled from the spec: [m.compute_entropy(r)] derives the entropy
    statistics of a fitted model for a raster (section 3). *)
Definition compute_entropy (m : Model) (r : Raster) : Eff state Model :=
  match _hmm m with
  | Some a =>
      do* emit (EvComputeEntropy (model_key m)) in
      ret {| model_key := model_key m; _hmm := _hmm m;
             mean_entropy := Some (mean_entropy_of a r);
             baseline_entropy := Some (baseline_entropy_of a r) |}
  | None => raise AttributeError
  end.

(** GenericFigure.py, lines 50-56. *)
Definition surr : string := "real".
Definition hmm_library : string := "default".
Definition bin_size_ms : Z := 30.
Definition n_states : Z * Z := (10, 20).
Definition n_stateses : list Z :=
  seqZ (fst n_states) (snd n_states + 1 - fst n_states).

(** The key of the model that line 65 asks for. *)
Definition sweep_key (source exp : string) (n : Z) : ModelKey :=
  {| key_source := source; key_experiment := exp;
     key_bin_size_ms := bin_size_ms; key_n_states := n;
     key_surrogate := surr; key_library := hmm_library |}.

(** GenericFigure.py, lines 64-72.  The function returns the handle [m]
    itself, which is a Model object and so never Python's [None]: the
    result is [Some] in both branches. *)
Definition process_model (source exp : string) (r : Raster) (n : Z)
    : Eff state (option Model) :=
  let* m := new_Model (sweep_key source exp n) false in
  match _hmm m with
  | None =>
      do* print ("No model for " +:+ exp +:+ " with " +:+ pretty n +:+ " states!") in
      ret (Some m)
  | Some _ =>
      let* m' := compute_entropy m r in
      ret (Some m')
  end.

(** The dictionary [rasters]: per experiment, the raster and the list
    that [joblib.Parallel] returns, one entry per number of states, in
    the order of [n_stateses].  An entry is a Python object that could
    be [None]. *)
Abbreviation rasters_dict := (gmap string (Raster * list (option Model))).

(** GenericFigure.py, lines 60-77, one turn of the loop.  The parallel
    map is run in order; which of its workers prints first is not fixed
    by the script. *)
Definition load_experiment (source : string) (rasters : rasters_dict)
    (exp : string) : Eff state rasters_dict :=
  do* emit (EvGetRaster source exp bin_size_ms surr) in
  let r := set_burst_default_rms 4 (get_raster source exp bin_size_ms surr) in
  let* models := for_each (process_model source exp r) n_stateses in
  ret (<[exp := (r, models)]> rasters).

Definition lookup_rasters (rasters : rasters_dict) (exp : string)
    : result (Raster * list (option Model)) :=
  match rasters !! exp with
  | Some entry => Ok entry
  | None => Raise KeyError
  end.

(** GenericFigure.py, lines 89-90: the entries that are not [None]. *)
Definition good_models (rasters : rasters_dict) (exp : string)
    : result (list Model) :=
  and_then (lookup_rasters rasters exp) (fun entry => Ok (omap id (snd entry))).

(** Reading [m.mean_entropy] and [m.baseline_entropy]: an attribute
    that was never set is an AttributeError. *)
Definition get_mean_entropy (m : Model) : result Curve :=
  match mean_entropy m with Some c => Ok c | None => Raise AttributeError end.

Definition get_baseline_entropy (m : Model) : result Real :=
  match baseline_entropy m with Some b => Ok b | None => Raise AttributeError end.

Record Statistics : Type := {
  entropies : gmap string (list Curve);
  entropy_means : gmap string Curve;
  baselines : gmap string Real;
  baseline_std : gmap string Real
}.

(** GenericFigure.py, lines 94-98, one turn of the loop. *)
Definition aggregate (rasters : rasters_dict) (st : Statistics) (exp : string)
    : result Statistics :=
  and_then (good_models rasters exp) (fun good1 =>
  and_then (comprehension get_mean_entropy good1) (fun curves =>
  and_then (good_models rasters exp) (fun good2 =>
  and_then (comprehension get_baseline_entropy good2) (fun bases2 =>
  and_then (good_models rasters exp) (fun good3 =>
  and_then (comprehension get_baseline_entropy good3) (fun bases3 =>
  Ok {| entropies := <[exp := curves]> (entropies st);
        entropy_means := <[exp := mean_axis0 curves]> (entropy_means st);
        baselines := <[exp := np_mean bases2]> (baselines st);
        baseline_std := <[exp := np_std bases3]> (baseline_std st) |})))))).

(** GenericFigure.py, lines 37-98: the module-level statements up to the
    entropy statistics.  What follows them draws the figures. *)
Definition main (args : Args) : Eff state (rasters_dict * Statistics) :=
  let source := args_source args in
  let experiments :=
    List.filter (fun exp => fnmatch exp (args_experiments args))
                (all_experiments source) in
  let base_exps :=
    List.filter (fun exp => fnmatch exp (args_base_exp args)) experiments in
  do* match base_exps with
      | [] =>
          do* eprint ("Invalid experiment " +:+ args_base_exp args
                      +:+ " doesn't match any of " +:+ str_of_list experiments) in
          sys_exit 1
      | _ :: _ => ret tt
      end in
  do* emit (EvFigdir "paper") in
  do* print "Loading fitted HMMs and calculating entropy." in
  let* rasters := for_fold (load_experiment source) experiments ∅ in
  do* for_fold (fun _ k =>
        let* entry := lift_result (lookup_rasters rasters k) in
        print (summary k (fst entry))) experiments tt in
  let* stats := for_fold (fun st exp => lift_result (aggregate rasters st exp))
                  experiments
                  {| entropies := ∅; entropy_means := ∅; baselines := ∅;
                     baseline_std := ∅ |} in
  ret (rasters, stats).

(** GenericFigure.py, lines 101-116. *)
Definition load_unit_order (rasters : rasters_dict) (exp : string)
    : Eff state (ndarray * ndarray) :=
  let srm := load_metrics exp in
  let* unit_order :=
    match srm with
    | Some mean_rate_ordering =>
        ret (np_int32 ((fun x => x - 1) <$> mean_rate_ordering))
    | None =>
        do* print "⚠ Metrics not found, cannot separate packet/non-packet units." in
        let* entry := lift_result (lookup_rasters rasters exp) in
        ret (arange (raster_N (fst entry)))
    end in
  let inverse_unit_order := zeros_like unit_order in
  let* entry := lift_result (lookup_rasters rasters exp) in
  let* inverse_unit_order :=
    lift_result (setitem inverse_unit_order (data unit_order)
                   (data (arange (raster_N (fst entry))))) in
  ret (unit_order, inverse_unit_order).

(** The handle that [process_model] returns for [n] states, read off
    the cache [c]. *)
Definition expected_handle (c : gmap ModelKey Artifact) (source exp : string)
    (r : Raster) (n : Z) : Model :=
  let k := sweep_key source exp n in
  {| model_key := k; _hmm := c !! k;
     mean_entropy := (fun a => mean_entropy_of a r) <$> c !! k;
     baseline_entropy := (fun a => baseline_entropy_of a r) <$> c !! k |}.

(** The raster that line 61 and 62 store for an experiment. *)
Definition loaded_raster (source exp : string) : Raster :=
  set_burst_default_rms 4 (get_raster source exp bin_size_ms surr).

(** What lines 60-77 store for an experiment over a cache [c]: the
    raster and one handle per number of states, in the order of
    [n_stateses]. *)
Definition loaded_entry (c : gmap ModelKey Artifact) (source exp : string)
    : Raster * list (option Model) :=
  (loaded_raster source exp,
   (fun n => Some (expected_handle c source exp (loaded_raster source exp) n))
     <$> n_stateses).

(** A step that leaves the cache, the fitter and standard error as they
    were. *)
Definition quiet (s s' : state) : Prop :=
  cache s' = cache s /\ fitter s' = fitter s /\
  stderr_lines (out s') = stderr_lines (out s).

(** The four statistics of lines 95-98 for [exp], computed from the
    handles of its sweep over the cache [c]. *)
Definition has_statistics (c : gmap ModelKey Artifact) (source exp : string)
    (st : Statistics) : Prop :=
  let handles :=
    (fun n => expected_handle c source exp (loaded_raster source exp) n)
      <$> n_stateses in
  entropies st !! exp = Some (omap mean_entropy handles) /\
  entropy_means st !! exp = Some (mean_axis0 (omap mean_entropy handles)) /\
  baselines st !! exp = Some (np_mean (omap baseline_entropy handles)) /\
  baseline_std st !! exp = Some (np_std (omap baseline_entropy handles)).

(** GenericFigure.py, lines 120-121, the first two statements of
    [do_the_whole_giant_figure(base_exp, n_states)]: the raster and the
    model with [n_states] states. *)
Definition figure_model (rasters : rasters_dict) (base_exp : string)
    (n_states : Z) : result (Raster * option Model) :=
  and_then (lookup_rasters rasters base_exp) (fun entry =>
  let r := fst entry in
  and_then (lookup_rasters rasters base_exp) (fun entry' =>
  and_then (first_item (where_eq n_stateses n_states)) (fun i =>
  and_then (list_getitem (snd entry') i) (fun model =>
  Ok (r, model))))).

(** [x or y] with [x] a list or [None]. *)
Definition py_or (x : option (list Z)) (y : list Z) : list Z :=
  match x with
  | Some (a :: l) => a :: l
  | Some [] | None => y
  end.

(** GenericFigure.py, line 129: the states of panel B.
    [by_probability] is the value of the expression after [or], the
    three states that are observed most. *)
Definition figure_states (args : Args) (by_probability : list Z) : list Z :=
  merge_sort Z.le (py_or (args_states args) by_probability).

(** GenericFigure.py, line 158: the heights at which the spikes of the
    units [idces] are drawn, [inverse_unit_order[idces] + 1]. *)
Definition spike_rows (inverse_unit_order : ndarray) (idces : list Z)
    : result ndarray :=
  and_then (getitem inverse_unit_order idces) (fun rows => Ok (add_scalar rows 1)).

(** GenericFigure.py, lines 281-289, without the drawing itself: the
    entropy curves handed to [en.plot], each with the experiment it
    belongs to and its colour, and the raster that line 289 picks for
    the population rate.  [exp] is the variable of the loop, which
    line 289 reads after the loop has ended; it is unbound if the loop
    never ran. *)
Definition entropy_curve (entropies : gmap string (list Curve)) (exp : string)
    : result Curve :=
  match entropies !! exp with
  | Some curves => Ok (mean_axis0 curves)
  | None => Raise KeyError
  end.

Definition entropy_panel_step (entropies : gmap string (list Curve))
    (base_exp : string) (acc : list (string * Curve * string) * option string)
    (exp : string) : result (list (string * Curve * string) * option string) :=
  if bool_decide (exp = base_exp) then Ok (fst acc, Some exp)
  else and_then (entropy_curve entropies exp) (fun ent =>
         Ok (fst acc ++ [(exp, ent, "C0")], Some exp)).

Fixpoint fold_result {A B} (f : B -> A -> result B) (l : list A) (b : B)
    : result B :=
  match l with
  | [] => Ok b
  | x :: l' => and_then (f b x) (fold_result f l')
  end.

Definition entropy_panel (entropies : gmap string (list Curve))
    (rasters : rasters_dict) (experiments : list string) (base_exp : string)
    : result (list (string * Curve * string) * Raster) :=
  and_then (fold_result (entropy_panel_step entropies base_exp) experiments
              ([], None)) (fun acc =>
  and_then (entropy_curve entropies base_exp) (fun ent =>
  let plotted := fst acc ++ [(base_exp, ent, "C3")] in
  match snd acc with
  | None => Raise (OtherException "UnboundLocalError")
  | Some exp =>
      and_then (lookup_rasters rasters exp) (fun entry =>
      Ok (plotted, fst entry))
  end)).

End Script.

End GenericFigure.

(** ** Inputs for the examples *)

Module Demo.

Import JobQueue.

(** A fitter whose optimizer always divides by zero, one that fails in
    another way, and one that fits. *)
Definition diverging_fit (k : ModelKey) (v : bool) (f : unit)
    : unit * result unit := (f, Raise ZeroDivisionError).

Definition broken_fit (k : ModelKey) (v : bool) (f : unit)
    : unit * result unit := (f, Raise (OtherException "MemoryError")).

(** A job object whose [requeue] counts the retries left in the world. *)
Definition counting_requeue (job : unit) (retries : nat) : nat * result bool :=
  match retries with
  | O => (O, Ok false)
  | S n => (n, Ok true)
  end.

Definition key15 : ModelKey :=
  {| key_source := "A"; key_experiment := "e1"; key_bin_size_ms := 30;
     key_n_states := 15; key_surrogate := "real"; key_library := "default" |}.

Definition key16 : ModelKey :=
  {| key_source := "A"; key_experiment := "e1"; key_bin_size_ms := 30;
     key_n_states := 16; key_surrogate := "real"; key_library := "default" |}.

(** A queue that allows three attempts, with two fresh jobs. *)
Definition queue3 : Queue :=
  fst (enqueue key16 false (fst (enqueue key15 false
    {| max_attempts := 3; jobs := [] |}))).

(** A small world for the figure script: two experiments of three units
    each, metrics for the first one only, floats stood in for by
    integers. *)
Definition world : GenericFigure.Environment := {|
  GenericFigure.Raster := nat;
  GenericFigure.Artifact := Z;
  GenericFigure.Curve := Z;
  GenericFigure.Real := Z;
  GenericFigure.FitterState := unit;
  GenericFigure.fnmatch := fun name pattern =>
    if String.eqb pattern "*" then true else String.eqb name pattern;
  GenericFigure.str_of_list := fun l => "[" +:+ String.concat ", " l +:+ "]";
  GenericFigure.all_experiments := fun _ => ["e1"; "e2"];
  GenericFigure.get_raster := fun _ _ _ _ => 3%nat;
  GenericFigure.raster_N := fun r => r;
  GenericFigure.set_burst_default_rms := fun _ r => r;
  GenericFigure.summary := fun k _ => k;
  GenericFigure.fit := fun k f => (f, Some (key_n_states k));
  GenericFigure.retry_limit := 3;
  GenericFigure.mean_entropy_of := fun a _ => a;
  GenericFigure.baseline_entropy_of := fun a _ => a;
  GenericFigure.mean_axis0 := fun l => foldr Z.add 0 l;
  GenericFigure.np_mean := fun l => foldr Z.add 0 l;
  GenericFigure.np_std := fun _ => 0;
  GenericFigure.load_metrics := fun exp =>
    if String.eqb exp "e1" then Some [3; 1; 2] else None
|}.

(** A cache that holds every model of the sweep for "e1" but the one
    with 15 states. *)
Definition cache_without_15 : gmap ModelKey Z :=
  list_to_map
    ((fun n => (GenericFigure.sweep_key "A" "e1" n, n))
       <$> [10; 11; 12; 13; 14; 16; 17; 18; 19; 20]).

Definition start : @GenericFigure.state world :=
  @GenericFigure.Build_state world cache_without_15 tt [].

Definition args_e1 : GenericFigure.Args :=
  {| GenericFigure.args_source := "A"; GenericFigure.args_experiments := "e1";
     GenericFigure.args_base_exp := "*"; GenericFigure.args_states := None;
     GenericFigure.args_no_show := true |}.

Definition args_no_base : GenericFigure.Args :=
  {| GenericFigure.args_source := "A"; GenericFigure.args_experiments := "*";
     GenericFigure.args_base_exp := "e9"; GenericFigure.args_states := None;
     GenericFigure.args_no_show := true |}.

(** The same world with other metrics: every experiment has the
    ordering [ordering]. *)
Definition world_with_metrics (ordering : list Z) : GenericFigure.Environment := {|
  GenericFigure.Raster := nat;
  GenericFigure.Artifact := Z;
  GenericFigure.Curve := Z;
  GenericFigure.Real := Z;
  GenericFigure.FitterState := unit;
  GenericFigure.fnmatch := @GenericFigure.fnmatch world;
  GenericFigure.str_of_list := @GenericFigure.str_of_list world;
  GenericFigure.all_experiments := @GenericFigure.all_experiments world;
  GenericFigure.get_raster := @GenericFigure.get_raster world;
  GenericFigure.raster_N := @GenericFigure.raster_N world;
  GenericFigure.set_burst_default_rms := @GenericFigure.set_burst_default_rms world;
  GenericFigure.summary := @GenericFigure.summary world;
  GenericFigure.fit := @GenericFigure.fit world;
  GenericFigure.retry_limit := @GenericFigure.retry_limit world;
  GenericFigure.mean_entropy_of := @GenericFigure.mean_entropy_of world;
  GenericFigure.baseline_entropy_of := @GenericFigure.baseline_entropy_of world;
  GenericFigure.mean_axis0 := @GenericFigure.mean_axis0 world;
  GenericFigure.np_mean := @GenericFigure.np_mean world;
  GenericFigure.np_std := @GenericFigure.np_std world;
  GenericFigure.load_metrics := fun _ => Some ordering
|}.

(** A cache that holds every model of the sweep for "e1" and "e2". *)
Definition full_cache : gmap ModelKey Z :=
  list_to_map
    ((fun n => (GenericFigure.sweep_key "A" "e1" n, n)) <$> GenericFigure.n_stateses)
  ∪ list_to_map
    ((fun n => (GenericFigure.sweep_key "A" "e2" n, n + 100))
       <$> GenericFigure.n_stateses).

Definition start_full : @GenericFigure.state world :=
  @GenericFigure.Build_state world full_cache tt [].

Definition args_all : GenericFigure.Args :=
  {| GenericFigure.args_source := "A"; GenericFigure.args_experiments := "*";
     GenericFigure.args_base_exp := "e1"; GenericFigure.args_states := None;
     GenericFigure.args_no_show := true |}.

End Demo.

(** * Properties *)

(** ** hmm_worker.py: when the job goes back to the queue *)

Module HmmWorkerFacts.

Import HmmWorker.

Section FitHmm.

Context {W J Params : Type}.
Variable get_fitted_hmm : Params -> bool -> W -> W * result unit.
Variable params : J -> Params.
Variable requeue : J -> W -> W * result bool.

Abbreviation fit_hmm := (HmmWorker.fit_hmm get_fitted_hmm params requeue).

(** What [fit_hmm] does, by the outcome of the fit. *)
Lemma fit_hmm_unfold (job : J) (s : state W J) :
  fit_hmm job s =
    match get_fitted_hmm (params job) true (world s) with
    | (w1, Ok _) => (State w1 (trace s), Ok tt)
    | (w1, Raise ZeroDivisionError) =>
        match requeue job w1 with
        | (w2, Ok true) =>
            (State w2 (trace s ++ [EvRequeue job (Ok true);
                                   EvPrint "Optimization failed, retrying."]),
             Ok tt)
        | (w2, Ok false) =>
            (State w2 (trace s ++ [EvRequeue job (Ok false);
                                   EvPrint "Optimization failed."]),
             Ok tt)
        | (w2, Raise e) =>
            (State w2 (trace s ++ [EvRequeue job (Raise e)]), Raise e)
        end
    | (w1, Raise e) => (State w1 (trace s), Raise e)
    end.
Proof.
  unfold HmmWorker.fit_hmm, try_except, call.
  destruct (get_fitted_hmm (params job) true (world s)) as [w1 [[]|e]]; [done|].
  destruct e; simpl; try done.
  unfold bind, job_requeue; simpl.
  destruct (requeue job w1) as [w2 [[|]|e]]; simpl;
    unfold print, emit, modify; simpl; by rewrite <- ?(assoc_L (++)).
Qed.

Lemma requeue_calls_app (tr1 tr2 : list (event J)) :
  requeue_calls (tr1 ++ tr2) = requeue_calls tr1 ++ requeue_calls tr2.
Proof. apply omap_app. Qed.

(** C1.  The calls of [job.requeue()] that one run of [fit_hmm] adds to
    the trace: exactly one, on the job at hand, when the fit raises
    ZeroDivisionError; none when it raises anything else, and none when
    it succeeds. *)
Theorem fit_hmm_requeue_calls (job : J) (s : state W J) :
  requeue_calls (trace (fst (fit_hmm job s))) =
    requeue_calls (trace s) ++
    match snd (get_fitted_hmm (params job) true (world s)) with
    | Raise ZeroDivisionError => [job]
    | Raise _ => []
    | Ok _ => []
    end.
Proof.
  rewrite fit_hmm_unfold.
  destruct (get_fitted_hmm (params job) true (world s)) as [w1 [[]|e]]; simpl.
  { by rewrite app_nil_r. }
  destruct e; simpl; try by rewrite app_nil_r.
  destruct (requeue job w1) as [w2 [[|]|e]]; simpl;
    by rewrite requeue_calls_app.
Qed.

(** C2.  After a fit that raised ZeroDivisionError, what [requeue]
    answers picks the line that is printed: "Optimization failed,
    retrying." for [True], "Optimization failed." for [False]; nothing
    else is printed and [fit_hmm] returns. *)
Theorem fit_hmm_message_follows_requeue (job : J) (s : state W J)
    (w1 w2 : W) (accepted : bool) :
  get_fitted_hmm (params job) true (world s) = (w1, Raise ZeroDivisionError) ->
  requeue job w1 = (w2, Ok accepted) ->
  fit_hmm job s =
    (State w2
       (trace s ++
        [EvRequeue job (Ok accepted);
         EvPrint (if accepted then "Optimization failed, retrying."
                  else "Optimization failed.")]),
     Ok tt).
Proof.
  intros Hfit Hrq. rewrite fit_hmm_unfold, Hfit, Hrq. by destruct accepted.
Qed.

End FitHmm.

(** The two answers of [requeue], on a job with one retry left. *)
Lemma fit_hmm_message_follows_requeue_witness :
  fit_hmm (fun (_ : unit) (_ : bool) (w : nat) => (w, Raise ZeroDivisionError))
      (fun _ : unit => tt) Demo.counting_requeue tt (State 1%nat []) =
    (State 0%nat [EvRequeue tt (Ok true);
                  EvPrint "Optimization failed, retrying."], Ok tt)
  /\ fit_hmm (fun (_ : unit) (_ : bool) (w : nat) => (w, Raise ZeroDivisionError))
      (fun _ : unit => tt) Demo.counting_requeue tt (State 0%nat []) =
    (State 0%nat [EvRequeue tt (Ok false);
                  EvPrint "Optimization failed."], Ok tt).
Proof.
  split.
  - apply (fit_hmm_message_follows_requeue _ _ _ tt (State 1%nat []) 1%nat 0%nat true);
      reflexivity.
  - apply (fit_hmm_message_follows_requeue _ _ _ tt (State 0%nat []) 0%nat 0%nat false);
      reflexivity.
Defined.

End HmmWorkerFacts.

(** ** The dispatch loop on the job queue *)

Module JobQueueFacts.

Import HmmWorker JobQueue.

Lemma first_pending_Some (js : list Job) (id : nat) :
  first_pending js = Some id ->
  exists j, js !! id = Some j /\ job_status j = Pending.
Proof.
  revert id. induction js as [|j js IH]; intros id; simpl; [done|].
  unfold is_pending. case_bool_decide as Hp.
  - intros [= <-]. eauto.
  - destruct (first_pending js) as [i|]; simpl; [|done].
    intros [= <-]. by apply IH.
Qed.

Lemma first_pending_None (js : list Job) :
  first_pending js = None ->
  forall id j, js !! id = Some j -> job_status j <> Pending.
Proof.
  induction js as [|j0 js IH]; simpl; [by intros _ id j|].
  unfold is_pending. case_bool_decide as Hp; [done|].
  destruct (first_pending js) as [i|] eqn:Hf; simpl; [done|].
  intros _ [|id] j; simpl; [by intros [= <-]|]. by apply IH.
Qed.

Lemma set_row_lookup (id : nat) (j j' : Job) (q : Queue) :
  jobs q !! id = Some j -> jobs (set_row id j' q) !! id = Some j'.
Proof.
  intros H. simpl. apply list_lookup_insert_eq. by eapply lookup_lt_Some.
Qed.

Lemma set_row_lookup_ne (id id' : nat) (j' : Job) (q : Queue) :
  id <> id' -> jobs (set_row id j' q) !! id' = jobs q !! id'.
Proof. intros H. simpl. by apply list_lookup_insert_ne. Qed.

Lemma set_row_set_row (id : nat) (j1 j2 : Job) (q : Queue) :
  set_row id j2 (set_row id j1 q) = set_row id j2 q.
Proof. unfold set_row, with_jobs. simpl. by rewrite list_insert_insert_eq. Qed.

Lemma max_attempts_set_row (id : nat) (j : Job) (q : Queue) :
  max_attempts (set_row id j q) = max_attempts q.
Proof. done. Qed.

#[local] Arguments set_row : simpl never.

Section Worker.

Context {F : Type}.
Variable fit : ModelKey -> bool -> F -> F * result unit.

Abbreviation fit_hmm := (JobQueue.fit_hmm fit).
Abbreviation wstate := (HmmWorker.state (F * Queue) handle).

Lemma worker_iteration_idle (s : wstate) :
  first_pending (jobs (snd (world s))) = None ->
  worker_iteration fit_hmm s = (s, Ok false).
Proof. intros H. unfold worker_iteration, lease. by rewrite H. Qed.

Lemma worker_iteration_leased (s : wstate) (id : nat) (j : Job) :
  first_pending (jobs (snd (world s))) = Some id ->
  jobs (snd (world s)) !! id = Some j ->
  worker_iteration fit_hmm s =
    let q := snd (world s) in
    let job := Handle id (key j) in
    match fit (key j) true (fst (world s)) with
    | (f1, Ok _) =>
        (State (f1, set_row id (with_status Succeeded j) q)
           (trace s ++ [EvLease job; EvComplete job]), Ok true)
    | (f1, Raise ZeroDivisionError) =>
        if (S (attempts j) <? max_attempts q)%nat
        then (State (f1, set_row id (with_status Pending
                                       (with_attempts (S (attempts j)) j)) q)
                (trace s ++ [EvLease job; EvRequeue job (Ok true);
                             EvPrint "Optimization failed, retrying."]),
              Ok true)
        else (State (f1, set_row id (with_status Abandoned
                                       (with_attempts (S (attempts j)) j)) q)
                (trace s ++ [EvLease job; EvRequeue job (Ok false);
                             EvPrint "Optimization failed."]),
              Ok true)
    | (f1, Raise e) =>
        (State (f1, set_row id (with_status Abandoned j) q)
           (trace s ++ [EvLease job; EvUnexpected job e]), Ok true)
    end.
Proof.
  intros Hfp Hj. destruct s as [[f q] tr]; simpl in *.
  unfold worker_iteration, lease; simpl. rewrite Hfp, Hj.
  unfold JobQueue.fit_hmm.
  rewrite HmmWorkerFacts.fit_hmm_unfold; simpl.
  unfold get_fitted_hmm; simpl.
  destruct (fit (key j) true f) as [f1 [[]|e]]; simpl.
  - unfold status_of. rewrite (set_row_lookup _ _ _ _ Hj); simpl.
    unfold complete. rewrite (set_row_lookup _ _ _ _ Hj); simpl.
    rewrite set_row_set_row. by rewrite <- (assoc_L (++)).
  - assert (Hother :
      (State (f1, abandon id (set_row id (with_status Leased j) q))
         ((tr ++ [EvLease (Handle id (key j))]) ++
          [EvUnexpected (Handle id (key j)) e]), Ok true)
      = (State (f1, set_row id (with_status Abandoned j) q)
           (tr ++ [EvLease (Handle id (key j));
                   EvUnexpected (Handle id (key j)) e]),
         @Ok bool true)).
    { unfold abandon. rewrite (set_row_lookup _ _ _ _ Hj); simpl.
      rewrite set_row_set_row. by rewrite <- (assoc_L (++)). }
    destruct e; simpl; try exact Hother.
    clear Hother. unfold job_requeue, requeue; simpl.
    assert (Hrow : forall j', <[id:=j']> (jobs q) !! id = Some j').
    { intros j'. apply list_lookup_insert_eq. by eapply lookup_lt_Some. }
    rewrite Hrow; simpl.
    destruct (S (attempts j) <? max_attempts q)%nat eqn:Hlt; simpl;
      unfold status_of; rewrite set_row_set_row; simpl;
      rewrite Hrow; simpl;
      by rewrite <- (assoc_L (++)).
Qed.


Lemma requeued_app (id : nat) (tr1 tr2 : list (event handle)) :
  requeued id (tr1 ++ tr2) = (requeued id tr1 + requeued id tr2)%nat.
Proof. unfold requeued. by rewrite List.filter_app, length_app. Qed.

Lemma leases_app (id : nat) (tr1 tr2 : list (event handle)) :
  leases id (tr1 ++ tr2) = (leases id tr1 + leases id tr2)%nat.
Proof. unfold leases. by rewrite List.filter_app, length_app. Qed.

Lemma sum_list_weight_insert (m : nat) (js : list Job) (id : nat) (j j' : Job) :
  js !! id = Some j ->
  (sum_list (weight m <$> <[id:=j']> js) + weight m j
   = sum_list (weight m <$> js) + weight m j')%nat.
Proof.
  revert id. induction js as [|j0 js IH]; intros [|id]; csimpl; try done.
  - intros [= ->].
    generalize (weight m j) (weight m j') (sum_list (weight m <$> js)).
    intros; lia.
  - intros H. specialize (IH _ H). revert IH.
    generalize (weight m j) (weight m j') (weight m j0)
      (sum_list (weight m <$> js)) (sum_list (weight m <$> <[id:=j']> js)).
    intros; lia.
Qed.

(** One iteration, seen from a job that is not the one leased. *)
Lemma worker_iteration_frame (s : wstate) (id : nat) :
  first_pending (jobs (snd (world s))) <> Some id ->
  let s' := fst (worker_iteration fit_hmm s) in
  jobs (snd (world s')) !! id = jobs (snd (world s)) !! id /\
  max_attempts (snd (world s')) = max_attempts (snd (world s)) /\
  requeued id (trace s') = requeued id (trace s) /\
  leases id (trace s') = leases id (trace s).
Proof.
  intros Hne. destruct (first_pending (jobs (snd (world s)))) as [id'|] eqn:Hfp.
  2:{ by rewrite (worker_iteration_idle _ Hfp). }
  destruct (first_pending_Some _ _ Hfp) as (j' & Hj' & _).
  assert (id' <> id) as Hid by congruence.
  rewrite (worker_iteration_leased _ _ _ Hfp Hj'). cbv zeta.
  destruct (fit (key j') true (fst (world s))) as [f1 [[]|e]];
    [|destruct e; try destruct (S (attempts j') <? _)%nat];
    cbn [fst snd world trace];
    rewrite set_row_lookup_ne, requeued_app, leases_app by done;
    (split; [done|]); (split; [done|]);
    unfold requeued, leases; cbn [List.filter length job_id];
    rewrite ?bool_decide_eq_false_2 by done; cbn [length]; lia.
Qed.

(** One iteration never raises and keeps the configured maximum. *)
Lemma worker_iteration_max (s : wstate) :
  max_attempts (snd (world (fst (worker_iteration fit_hmm s))))
  = max_attempts (snd (world s)).
Proof.
  destruct (first_pending (jobs (snd (world s)))) as [id'|] eqn:Hfp.
  2:{ by rewrite (worker_iteration_idle _ Hfp). }
  destruct (first_pending_Some _ _ Hfp) as (j' & Hj' & _).
  rewrite (worker_iteration_leased _ _ _ Hfp Hj'). cbv zeta.
  by destruct (fit (key j') true (fst (world s))) as [f1 [[]|e]];
    [|destruct e; try destruct (S (attempts j') <? _)%nat].
Qed.

Lemma worker_iteration_returns (s : wstate) :
  snd (worker_iteration fit_hmm s)
  = Ok (bool_decide (is_Some (first_pending (jobs (snd (world s)))))).
Proof.
  destruct (first_pending (jobs (snd (world s)))) as [id'|] eqn:Hfp.
  2:{ by rewrite (worker_iteration_idle _ Hfp). }
  destruct (first_pending_Some _ _ Hfp) as (j' & Hj' & _).
  rewrite (worker_iteration_leased _ _ _ Hfp Hj'). cbv zeta.
  by destruct (fit (key j') true (fst (world s))) as [f1 [[]|e]];
    [|destruct e; try destruct (S (attempts j') <? _)%nat].
Qed.

(** The loop, one iteration at a time. *)
Lemma become_worker_S (fuel : nat) (s : wstate) :
  become_worker (S fuel) fit_hmm s =
    match first_pending (jobs (snd (world s))) with
    | Some _ => become_worker fuel fit_hmm (fst (worker_iteration fit_hmm s))
    | None => (s, Ok true)
    end.
Proof.
  simpl. unfold bind.
  pose proof (worker_iteration_returns s) as Hr.
  destruct (worker_iteration fit_hmm s) as [s1 r] eqn:Hw. simpl in Hr. subst r.
  destruct (first_pending (jobs (snd (world s)))) as [id'|] eqn:Hfp.
  - done.
  - rewrite (worker_iteration_idle _ Hfp) in Hw. by injection Hw as <-.
Qed.


(** The loop never raises, whatever the fits do. *)
Lemma become_worker_returns (fuel : nat) (s : wstate) :
  exists drained : bool, snd (become_worker fuel fit_hmm s) = Ok drained.
Proof.
  revert s. induction fuel as [|fuel IH]; intros s; [by exists false|].
  rewrite become_worker_S.
  destruct (first_pending _); [apply IH | by exists true].
Qed.

(** Every iteration that leases a job uses up some of the fuel that
    [enough_fuel] counts. *)
Lemma worker_iteration_progress (s : wstate) (id : nat) :
  first_pending (jobs (snd (world s))) = Some id ->
  (enough_fuel (snd (world (fst (worker_iteration fit_hmm s))))
   < enough_fuel (snd (world s)))%nat.
Proof.
  intros Hfp. destruct (first_pending_Some _ _ Hfp) as (j & Hj & Hp).
  unfold enough_fuel. rewrite worker_iteration_max.
  pose proof (fun j' => sum_list_weight_insert
                (max_attempts (snd (world s))) _ _ _ j' Hj) as Hsum.
  assert (Hw : weight (max_attempts (snd (world s))) j
               = S (max_attempts (snd (world s)) - attempts j)).
  { unfold weight, is_pending. by rewrite bool_decide_eq_true_2. }
  rewrite (worker_iteration_leased _ _ _ Hfp Hj). cbv zeta.
  destruct (fit (key j) true (fst (world s))) as [f1 [[]|e]];
    [|destruct e; try destruct (S (attempts j) <? _)%nat eqn:Hlt];
    cbn [fst snd world]; unfold set_row; cbn [jobs with_jobs];
    match goal with
    | |- context [<[id:=?j']> _] =>
        specialize (Hsum j');
        assert (weight (max_attempts (snd (world s))) j'
                < weight (max_attempts (snd (world s))) j)%nat as Hdec
          by (rewrite Hw; unfold weight, is_pending; simpl;
              try apply Nat.ltb_lt in Hlt; lia)
    end;
    revert Hsum Hdec;
    generalize (weight (max_attempts (snd (world s))) j);
    match goal with
    | |- context [weight ?m ?j'] => generalize (weight m j')
    end;
    match goal with
    | |- context [sum_list ?l] => generalize (sum_list l)
    end;
    match goal with
    | |- context [sum_list ?l] => generalize (sum_list l)
    end;
    intros; lia.
Qed.

Lemma become_worker_drains (fuel : nat) (s : wstate) :
  (enough_fuel (snd (world s)) <= fuel)%nat ->
  exists s', become_worker fuel fit_hmm s = (s', Ok true) /\
             first_pending (jobs (snd (world s'))) = None.
Proof.
  revert s. induction fuel as [|fuel IH]; intros s Hfuel.
  { unfold enough_fuel in Hfuel. lia. }
  rewrite become_worker_S.
  destruct (first_pending (jobs (snd (world s)))) as [id|] eqn:Hfp; [|eauto].
  apply IH. pose proof (worker_iteration_progress _ _ Hfp). lia.
Qed.

(** A job that is not Pending is out of the loop's reach. *)
Lemma become_worker_frame (fuel : nat) (s : wstate) (id : nat) (j : Job) :
  jobs (snd (world s)) !! id = Some j ->
  job_status j <> Pending ->
  let s' := fst (become_worker fuel fit_hmm s) in
  jobs (snd (world s')) !! id = Some j /\
  requeued id (trace s') = requeued id (trace s) /\
  leases id (trace s') = leases id (trace s).
Proof.
  revert s. induction fuel as [|fuel IH]; intros s Hj Hnp; [done|].
  cbv zeta. rewrite become_worker_S.
  destruct (first_pending (jobs (snd (world s)))) as [id'|] eqn:Hfp; [|done].
  assert (Some id' <> Some id) as Hne.
  { intros [= ->]. destruct (first_pending_Some _ _ Hfp) as (j' & Hj' & Hp).
    congruence. }
  destruct (worker_iteration_frame s id) as (Hrow & _ & Hr & Hl);
    [by rewrite Hfp|].
  destruct (IH (fst (worker_iteration fit_hmm s))) as (Hrow' & Hr' & Hl');
    [by rewrite Hrow | done |].
  by rewrite Hrow', Hr', Hl', Hr, Hl.
Qed.

Section AlwaysFailing.

Variable k : ModelKey.
Hypothesis fit_fails : forall f, snd (fit k true f) = Raise ZeroDivisionError.

Lemma worker_iteration_failing (s : wstate) (id m r0 l0 : nat) :
  failing_job_invariant id k m r0 l0 s ->
  failing_job_invariant id k m r0 l0 (fst (worker_iteration fit_hmm s)).
Proof.
  intros (j & Hj & Hk & Hm & Hcases).
  destruct (decide (first_pending (jobs (snd (world s))) = Some id)) as [Hfp|Hfp].
  - destruct (first_pending_Some _ _ Hfp) as (j' & Hj' & Hp).
    assert (j' = j) as -> by congruence.
    destruct Hcases as [(_ & Hlt & Hr & Hl)|(Hab & _)]; [|congruence].
    rewrite (worker_iteration_leased _ _ _ Hfp Hj). cbv zeta.
    pose proof (fit_fails (fst (world s))) as Hfit. rewrite Hk.
    destruct (fit k true (fst (world s))) as [f1 r]. simpl in Hfit. subst r.
    rewrite Hm.
    destruct (S (attempts j) <? m)%nat eqn:Hcmp;
      [apply Nat.ltb_lt in Hcmp | apply Nat.ltb_ge in Hcmp];
      eexists; cbn [fst snd world trace];
      (split; [by apply (set_row_lookup _ _ _ _ Hj)|]);
      (split; [done|]); (split; [done|]);
      rewrite requeued_app, leases_app, Hr, Hl;
      unfold requeued, leases; cbn [List.filter length job_id];
      rewrite !bool_decide_eq_true_2 by done; cbn [length attempts with_status
        with_attempts job_status]; [left | right]; repeat split; lia.
  - destruct (worker_iteration_frame s id Hfp) as (Hrow & Hmax & Hr & Hl).
    exists j. rewrite Hrow, Hmax, Hr, Hl. by repeat split.
Qed.

Lemma become_worker_failing (fuel : nat) (s : wstate) (id m r0 l0 : nat) :
  failing_job_invariant id k m r0 l0 s ->
  failing_job_invariant id k m r0 l0 (fst (become_worker fuel fit_hmm s)).
Proof.
  revert s. induction fuel as [|fuel IH]; intros s Hinv; [done|].
  rewrite become_worker_S. destruct (first_pending _); [|done].
  by apply IH, worker_iteration_failing.
Qed.

End AlwaysFailing.

(** C3.  A fit that raises anything but ZeroDivisionError: [fit_hmm]
    passes the exception on without a line of its own and without a
    requeue; the worker's iteration writes it to the log as an
    unexpected failure of that job, which differs from both lines of the
    retry path, ends the job, leaves every other job of the queue as it
    was, and the loop goes on with the next lease and never raises. *)
Theorem unexpected_failure_stays_local (s : wstate) (id : nat) (j : Job)
    (f1 : F) (e : exn) :
  first_pending (jobs (snd (world s))) = Some id ->
  jobs (snd (world s)) !! id = Some j ->
  fit (key j) true (fst (world s)) = (f1, Raise e) ->
  e <> ZeroDivisionError ->
  let job := Handle id (key j) in
  let s' := State (f1, set_row id (with_status Abandoned j) (snd (world s)))
              (trace s ++ [EvLease job; EvUnexpected job e]) in
  (forall s0 : wstate, fst (world s0) = fst (world s) ->
     fit_hmm job s0 = (State (f1, snd (world s0)) (trace s0), Raise e)) /\
  worker_iteration fit_hmm s = (s', Ok true) /\
  (forall id', id' <> id ->
     jobs (snd (world s')) !! id' = jobs (snd (world s)) !! id') /\
  (forall fuel,
     become_worker (S fuel) fit_hmm s = become_worker fuel fit_hmm s') /\
  (forall fuel, exists drained : bool,
     snd (become_worker fuel fit_hmm s') = Ok drained).
Proof.
  intros Hfp Hj Hfit He job s'. repeat split.
  - intros s0 Hs0. unfold JobQueue.fit_hmm.
    rewrite HmmWorkerFacts.fit_hmm_unfold. unfold get_fitted_hmm.
    rewrite Hs0. cbn [params job]. rewrite Hfit. by destruct e.
  - rewrite (worker_iteration_leased _ _ _ Hfp Hj). cbv zeta.
    rewrite Hfit. by destruct e.
  - intros id' Hne. by apply set_row_lookup_ne.
  - intros fuel. rewrite become_worker_S, Hfp. f_equal.
    rewrite (worker_iteration_leased _ _ _ Hfp Hj). cbv zeta.
    rewrite Hfit. by destruct e.
  - intros fuel. apply become_worker_returns.
Qed.

(** C5.  A fresh job whose fit always raises ZeroDivisionError, in a
    queue that allows at least one attempt: its counter never passes the
    maximum; with enough fuel the loop ends with the job Abandoned,
    after it went back to Pending exactly [max_attempts - 1] times and
    was leased [max_attempts] times; and a job that is Abandoned is
    neither leased nor requeued again, however long the loop runs. *)
Theorem always_failing_job_is_abandoned (s : wstate) (id : nat) (j : Job) :
  (1 <= max_attempts (snd (world s)))%nat ->
  jobs (snd (world s)) !! id = Some j ->
  job_status j = Pending ->
  attempts j = 0%nat ->
  (forall f, snd (fit (key j) true f) = Raise ZeroDivisionError) ->
  (forall fuel a,
     attempts_of (snd (world (fst (become_worker fuel fit_hmm s)))) id = Some a ->
     (a <= max_attempts (snd (world s)))%nat) /\
  (forall fuel, (enough_fuel (snd (world s)) <= fuel)%nat ->
     exists s',
       become_worker fuel fit_hmm s = (s', Ok true) /\
       status_of (snd (world s')) id = Some Abandoned /\
       attempts_of (snd (world s')) id = Some (max_attempts (snd (world s))) /\
       requeued id (trace s')
       = (requeued id (trace s) + (max_attempts (snd (world s)) - 1))%nat /\
       leases id (trace s')
       = (leases id (trace s) + max_attempts (snd (world s)))%nat) /\
  (forall (s2 : wstate) fuel,
     status_of (snd (world s2)) id = Some Abandoned ->
     let s3 := fst (become_worker fuel fit_hmm s2) in
     status_of (snd (world s3)) id = Some Abandoned /\
     attempts_of (snd (world s3)) id = attempts_of (snd (world s2)) id /\
     requeued id (trace s3) = requeued id (trace s2) /\
     leases id (trace s3) = leases id (trace s2)).
Proof.
  intros Hmax Hj Hp Ha Hfails.
  assert (Hinv : failing_job_invariant id (key j) (max_attempts (snd (world s)))
                   (requeued id (trace s)) (leases id (trace s)) s).
  { exists j. split_and!; try done. left. rewrite Ha. split_and!; [done|lia..]. }
  split; [|split].
  - intros fuel a Hlook.
    destruct (become_worker_failing _ Hfails fuel _ _ _ _ _ Hinv)
      as (j' & Hj' & _ & _ & Hcases).
    unfold attempts_of in Hlook. rewrite Hj' in Hlook.
    injection Hlook as <-. destruct Hcases as [(_ & ? & _)|(_ & ? & _)]; lia.
  - intros fuel Hfuel.
    destruct (become_worker_drains fuel s Hfuel) as (s' & Hrun & Hnone).
    exists s'. split; [done|].
    pose proof (become_worker_failing _ Hfails fuel _ _ _ _ _ Hinv) as Hinv'.
    rewrite Hrun in Hinv'. cbn [fst] in Hinv'. destruct Hinv' as (j' & Hj' & _ & _ & Hcases).
    destruct Hcases as [(Hpend & _)|(Hab & Hatt & Hr & Hl)].
    { by destruct (first_pending_None _ Hnone _ _ Hj'). }
    unfold status_of, attempts_of. rewrite Hj'. simpl.
    by rewrite Hab, Hatt.
  - intros s2 fuel Hab. cbv zeta.
    unfold status_of, attempts_of in *.
    destruct (jobs (snd (world s2)) !! id) as [j2|] eqn:Hj2; [|done].
    injection Hab as Hab.
    destruct (become_worker_frame fuel s2 id j2 Hj2) as (Hrow & Hr & Hl);
      [congruence|].
    rewrite Hrow. simpl. by rewrite Hab.
Qed.

End Worker.

(** A MemoryError in the fit of the first of two jobs: the second job is
    untouched and the loop goes on. *)
Lemma unexpected_failure_stays_local_witness :
  worker_iteration (JobQueue.fit_hmm Demo.broken_fit)
    (State (tt, Demo.queue3) [])
  = (State (tt, set_row 0 (with_status Abandoned
               {| key := Demo.key15; verbose := false; attempts := 0;
                  job_status := Pending |}) Demo.queue3)
       [EvLease (Handle 0 Demo.key15);
        EvUnexpected (Handle 0 Demo.key15) (OtherException "MemoryError")],
     Ok true).
Proof.
  apply (unexpected_failure_stays_local Demo.broken_fit
           (State (tt, Demo.queue3) []) 0
           {| key := Demo.key15; verbose := false; attempts := 0;
              job_status := Pending |}
           tt (OtherException "MemoryError")); done.
Defined.

(** Three attempts allowed: two requeues, three leases, then Abandoned. *)
Lemma always_failing_job_is_abandoned_witness :
  exists s',
    become_worker 9 (JobQueue.fit_hmm Demo.diverging_fit)
      (State (tt, Demo.queue3) []) = (s', Ok true) /\
    status_of (snd (world s')) 0 = Some Abandoned /\
    attempts_of (snd (world s')) 0 = Some 3%nat /\
    requeued 0 (trace s') = 2%nat /\
    leases 0 (trace s') = 3%nat.
Proof.
  destruct (always_failing_job_is_abandoned Demo.diverging_fit
              (State (tt, Demo.queue3) []) 0
              {| key := Demo.key15; verbose := false; attempts := 0;
                 job_status := Pending |}) as (_ & Hrun & _);
    [simpl; lia | reflexivity | reflexivity | reflexivity | reflexivity |].
  apply (Hrun 9%nat). vm_compute. lia.
Defined.

End JobQueueFacts.

(** ** numpy: the assignment through an index array *)

Module NumpyFacts.

Import Numpy.

Lemma wrap32_range (z : Z) : - 2 ^ 31 <= wrap32 z < 2 ^ 31.
Proof. unfold wrap32. pose proof (Z.mod_pos_bound (z + 2 ^ 31) (2 ^ 32)). lia. Qed.

Lemma wrap32_small (z : Z) : - 2 ^ 31 <= z < 2 ^ 31 -> wrap32 z = z.
Proof. intros H. unfold wrap32. rewrite Z.mod_small; lia. Qed.

Lemma index_in_range (len : nat) (i : Z) :
  0 <= i < Z.of_nat len -> index len i = Some (Z.to_nat i).
Proof. intros H. unfold index. by rewrite bool_decide_eq_true_2. Qed.

Lemma mapM_index_in_range (len : nat) (idx : list Z) :
  Forall (fun i => 0 <= i < Z.of_nat len) idx ->
  mapM (index len) idx = Some (Z.to_nat <$> idx).
Proof.
  intros H. apply mapM_Some. induction H as [|i idx Hi _ IH]; csimpl.
  - constructor.
  - constructor; [by apply index_in_range | done].
Qed.

Lemma length_foldl_store (dt : dtype) (places : list (nat * Z)) (a : list Z) :
  length (foldl (store dt) a places) = length a.
Proof.
  revert a. induction places as [|p places IH]; intros a; simpl; [done|].
  rewrite IH. unfold store. by rewrite length_insert.
Qed.

(** A place that is not assigned keeps its value. *)
Lemma foldl_store_other (dt : dtype) (places : list nat) (vals : list Z)
    (a : list Z) (p : nat) :
  p ∉ places -> foldl (store dt) a (zip places vals) !! p = a !! p.
Proof.
  revert vals a. induction places as [|p0 places IH]; intros vals a Hp; [done|].
  destruct vals as [|v vals]; [done|]. simpl.
  apply not_elem_of_cons in Hp as [Hne Hp].
  rewrite IH by done. unfold store. simpl. by rewrite list_lookup_insert_ne.
Qed.

(** A place that is assigned once holds the value assigned to it. *)
Lemma foldl_store_assigned (dt : dtype) (places : list nat) (vals : list Z)
    (a : list Z) (i p : nat) (v : Z) :
  NoDup places -> places !! i = Some p -> vals !! i = Some v ->
  (p < length a)%nat ->
  foldl (store dt) a (zip places vals) !! p = Some (cast dt v).
Proof.
  revert vals a i.
  induction places as [|p0 places IH]; intros vals a i Hnd Hp Hv Hlen; [done|].
  destruct vals as [|v0 vals]; [done|]. simpl.
  apply NoDup_cons in Hnd as [Hnotin Hnd].
  destruct i as [|i]; simpl in Hp, Hv.
  - injection Hp as ->. injection Hv as ->.
    rewrite foldl_store_other by done. unfold store. simpl.
    by apply list_lookup_insert_eq.
  - apply (IH vals _ i); try done. unfold store. by rewrite length_insert.
Qed.

(** Assigning [0 .. n-1] through a permutation of [0 .. n-1] writes its
    inverse. *)
Lemma setitem_permutation (dt : dtype) (idx : list Z) (n : nat) :
  idx ≡ₚ Z.of_nat <$> seq 0 n ->
  (forall i : nat, (i < n)%nat -> cast dt (Z.of_nat i) = Z.of_nat i) ->
  exists inverse : list Z,
    setitem (NdArray dt (replicate (length idx) 0)) idx (Z.of_nat <$> seq 0 n)
    = Ok (NdArray dt inverse) /\
    length inverse = n /\
    forall (i : nat) (u : Z),
      idx !! i = Some u -> item (NdArray dt inverse) u = Some (Z.of_nat i).
Proof.
  intros Hperm Hcast.
  assert (Hlen : length idx = n).
  { by rewrite Hperm, length_fmap, length_seq. }
  assert (Hrange : Forall (fun i => 0 <= i < Z.of_nat n) idx).
  { rewrite Hperm. apply Forall_fmap, Forall_forall. intros i Hi.
    apply elem_of_seq in Hi. simpl. lia. }
  assert (Hnodup : NoDup (Z.to_nat <$> idx)).
  { rewrite Hperm, <- list_fmap_compose.
    rewrite (list_fmap_ext _ id (seq 0 n)) by (intros; simpl; lia).
    rewrite list_fmap_id. apply NoDup_seq. }
  unfold setitem, broadcast_to. cbn [data dtype_of].
  rewrite length_replicate, Hlen.
  rewrite bool_decide_eq_true_2 by (by rewrite length_fmap, length_seq).
  rewrite (mapM_index_in_range n idx Hrange).
  eexists. split; [done|]. split.
  { by rewrite length_foldl_store, length_replicate. }
  intros i u Hu.
  assert (0 <= u < Z.of_nat n) as Hu_range.
  { eapply Forall_forall in Hrange; [done|]. by eapply list_elem_of_lookup_2. }
  assert (i < n)%nat as Hi.
  { rewrite <- Hlen. by eapply lookup_lt_Some. }
  unfold item. cbn [data].
  rewrite length_foldl_store, length_replicate, index_in_range by done.
  rewrite (foldl_store_assigned dt _ _ _ i (Z.to_nat u) (Z.of_nat i)).
  - by rewrite Hcast.
  - done.
  - by rewrite list_lookup_fmap, Hu.
  - rewrite list_lookup_fmap, lookup_seq_lt by done. done.
  - rewrite length_replicate. lia.
Qed.

Lemma setitem_zeros_like_permutation (unit_order : ndarray) (n : nat) :
  data unit_order ≡ₚ data (arange n) ->
  (forall i : nat, (i < n)%nat ->
     cast (dtype_of unit_order) (Z.of_nat i) = Z.of_nat i) ->
  exists inverse : ndarray,
    setitem (zeros_like unit_order) (data unit_order) (data (arange n))
    = Ok inverse /\
    dtype_of inverse = dtype_of unit_order /\
    length (data inverse) = n /\
    forall (i : nat) (u : Z),
      data unit_order !! i = Some u -> item inverse u = Some (Z.of_nat i).
Proof.
  intros Hperm Hcast.
  destruct (setitem_permutation (dtype_of unit_order) (data unit_order) n
              Hperm Hcast) as (inverse & Hset & Hlen & Hinv).
  exists (NdArray (dtype_of unit_order) inverse). by split_and!.
Qed.

Lemma setitem_identity (n : nat) :
  setitem (zeros_like (arange n)) (data (arange n)) (data (arange n))
  = Ok (arange n).
Proof.
  destruct (setitem_zeros_like_permutation (arange n) n)
    as ([dt inverse] & Hset & Hdt & Hlen & Hinv); [done..|].
  rewrite Hset. f_equal. simpl in Hdt, Hlen. subst dt. unfold arange. f_equal.
  apply list_eq_same_length with n;
    [by rewrite length_fmap, length_seq | done |].
  intros i x y Hi Hx Hy.
  rewrite list_lookup_fmap, lookup_seq_lt in Hy by done.
  injection Hy as <-.
  specialize (Hinv i (Z.of_nat i)). unfold item in Hinv.
  cbn [data] in Hinv. rewrite Hlen in Hinv.
  rewrite index_in_range, Nat2Z.id in Hinv by lia.
  rewrite Hinv in Hx; [congruence|].
  change (data (arange n)) with (Z.of_nat <$> seq 0 n).
  by rewrite list_lookup_fmap, lookup_seq_lt.
Qed.

(** Indices that are in range and as many as the values: the assignment
    goes through. *)
Lemma setitem_in_range (a : ndarray) (idx vals : list Z) :
  length vals = length idx ->
  Forall (fun i => 0 <= i < Z.of_nat (length (data a))) idx ->
  exists updated, setitem a idx vals = Ok (NdArray (dtype_of a) updated).
Proof.
  intros Hlen Hrange. unfold setitem, broadcast_to.
  rewrite bool_decide_eq_true_2 by done.
  rewrite (mapM_index_in_range _ idx Hrange). eauto.
Qed.

End NumpyFacts.

(** ** GenericFigure.py *)

Module GenericFigureFacts.

Import Numpy GenericFigure.

(** [split] yields one field more than there are separators. *)
Lemma length_split (sep : ascii) (s : string) :
  length (split sep s) = S (count_char sep s).
Proof.
  induction s as [|c s IH]; simpl; [done|].
  destruct (Ascii.eqb c sep); simpl; [by rewrite IH|].
  destruct (split sep s) as [|field fields]; simpl in *; [done|lia].
Qed.

Section ThreeInts.

Variable int : string -> option Z.

(** C9.  [three_ints] returns exactly when its argument splits on ","
    into three fields that [int] reads, and then returns the three
    values, each less one, in order; on every other argument it raises,
    and what it raises is a ValueError. *)
Theorem three_ints_spec (arg : string) :
  (forall l : list Z,
     three_ints int arg = Ok l <->
     exists (a b c : string) (x y z : Z),
       split "," arg = [a; b; c] /\
       int a = Some x /\ int b = Some y /\ int c = Some z /\
       l = [x - 1; y - 1; z - 1]) /\
  (forall e : exn, three_ints int arg = Raise e -> e = ValueError).
Proof.
  unfold three_ints, unpack3, py_int.
  destruct (split "," arg) as [|a [|b [|c [|d fields]]]]; simpl;
    try (split; [intros l; split; [done | by intros (?&?&?&?&?&?&?&?)]
                | by intros e [= <-]]).
  destruct (int a) as [x|] eqn:Ha, (int b) as [y|] eqn:Hb,
           (int c) as [z|] eqn:Hc; simpl;
    (split; [intros l; split;
               [ intros [= <-] || done
               | intros (a' & b' & c' & x' & y' & z' & [= <- <- <-] & Hx & Hy & Hz & ->);
                 congruence ]
            | intros e H; by inversion H ]).
  by exists a, b, c, x, y, z.
Qed.

End ThreeInts.

Section Script.

Context `{Env : Environment}.

Abbreviation rasters_dict := (gmap string (Raster * list (option Model))).

(** C10.  When the base-experiment pattern matches none of the selected
    experiments, the script writes one line to standard error, which
    names the pattern, and exits with status 1: nothing else is in the
    trace, so no raster is loaded and no model is looked up, and the
    cache and the fitter are as they were. *)
Theorem no_base_experiment_exits (args : Args) (s : state) :
  let experiments :=
    List.filter (fun exp => fnmatch exp (args_experiments args))
                (all_experiments (args_source args)) in
  List.filter (fun exp => fnmatch exp (args_base_exp args)) experiments = [] ->
  main args s =
    ({| cache := cache s; fitter := fitter s;
        out := out s ++
          [Stderr ("Invalid experiment " +:+ args_base_exp args
                   +:+ " doesn't match any of " +:+ str_of_list experiments)] |},
     Raise (SystemExit 1)).
Proof.
  intros experiments Hnone. unfold main. fold experiments. rewrite Hnone.
  reflexivity.
Qed.

(** What [process_model] does, by the content of the cache. *)
Lemma process_model_unfold (source exp : string) (r : Raster) (n : Z) (s : state) :
  let k := sweep_key source exp n in
  process_model source exp r n s =
    match cache s !! k with
    | None =>
        ({| cache := cache s; fitter := fitter s;
            out := out s ++
              [EvLookup k;
               Stdout ("No model for " +:+ exp +:+ " with " +:+ pretty n
                       +:+ " states!")] |},
         Ok (Some {| model_key := k; _hmm := None; mean_entropy := None;
                     baseline_entropy := None |}))
    | Some a =>
        ({| cache := cache s; fitter := fitter s;
            out := out s ++ [EvLookup k; EvComputeEntropy k] |},
         Ok (Some {| model_key := k; _hmm := Some a;
                     mean_entropy := Some (mean_entropy_of a r);
                     baseline_entropy := Some (baseline_entropy_of a r) |}))
    end.
Proof.
  intros k. unfold process_model, new_Model, get_or_none, bind. fold k. simpl.
  destruct (cache s !! k) as [a|]; simpl;
    unfold compute_entropy, print, emit, modify, bind, ret; simpl;
    by rewrite <- (assoc_L (++)).
Qed.

(** C6.  The access path of the figure script, [Model(...,
    recompute_ok=False)] inside [process_model]: it looks the key up in
    the cache and does nothing else to the cache or the Fitter; the
    handle it returns holds what the cache holds; for an absent key it
    prints the "No model for ..." line and leaves [_hmm] at [None]; and
    the entropy is computed exactly when the artifact is there. *)
Theorem cache_only_access (source exp : string) (r : Raster) (n : Z) (s : state) :
  let k := sweep_key source exp n in
  let s' := fst (process_model source exp r n s) in
  exists m : Model,
    snd (process_model source exp r n s) = Ok (Some m) /\
    model_key m = k /\
    _hmm m = cache s !! k /\
    cache s' = cache s /\
    fitter s' = fitter s /\
    out s' = out s ++
      EvLookup k ::
      match cache s !! k with
      | None => [Stdout ("No model for " +:+ exp +:+ " with " +:+ pretty n
                         +:+ " states!")]
      | Some _ => [EvComputeEntropy k]
      end /\
    (is_Some (mean_entropy m) <-> is_Some (cache s !! k)) /\
    (is_Some (baseline_entropy m) <-> is_Some (cache s !! k)).
Proof.
  intros k s'. subst s'. rewrite process_model_unfold. fold k.
  destruct (cache s !! k) as [a|]; eexists; simpl; split_and!; try done;
    rewrite <- ?not_eq_None_Some; naive_solver.
Qed.

(** Every entry of the list of models is a handle, never [None], and so
    [good_models] keeps all of them. *)
Lemma process_model_returns_handle (source exp : string) (r : Raster) (n : Z)
    (s : state) :
  exists m : Model,
    snd (process_model source exp r n s) = Ok (Some m) /\
    _hmm m = cache s !! sweep_key source exp n.
Proof.
  rewrite process_model_unfold.
  destruct (cache s !! sweep_key source exp n); eexists; simpl; eauto.
Qed.

Lemma good_models_keeps_handles (rasters : rasters_dict) (exp : string)
    (r : Raster) (handles : list Model) :
  rasters !! exp = Some (r, Some <$> handles) ->
  good_models rasters exp = Ok handles.
Proof.
  intros H. unfold good_models, lookup_rasters. rewrite H. simpl. f_equal.
  clear H. induction handles as [|m handles IH]; [done|].
  rewrite fmap_cons. simpl. by f_equal.
Qed.

Lemma arange_data (n : nat) : data (arange n) = Z.of_nat <$> seq 0 n.
Proof. done. Qed.

(** C7.  With the experiment in [rasters]: when the metrics hold an
    ordering of the raster's N units (N entries, each a unit number
    between 1 and N, N within int32), [load_unit_order] returns it
    shifted to start at zero and prints nothing; when there are no
    metrics it prints the warning and returns the identity ordering
    [0 .. N-1], whose inverse is the identity again. *)
Theorem load_unit_order_selects (rasters : rasters_dict) (exp : string)
    (r : Raster) (models : list (option Model)) (s : state) :
  rasters !! exp = Some (r, models) ->
  (forall ordering : list Z,
     load_metrics exp = Some ordering ->
     length ordering = raster_N r ->
     Forall (fun x => 1 <= x <= Z.of_nat (raster_N r)) ordering ->
     Z.of_nat (raster_N r) <= 2 ^ 31 ->
     exists inverse : ndarray,
       load_unit_order rasters exp s =
         (s, Ok (NdArray int32 ((fun x => x - 1) <$> ordering), inverse))) /\
  (load_metrics exp = None ->
     load_unit_order rasters exp s =
       ({| cache := cache s; fitter := fitter s;
           out := out s ++
             [Stdout "⚠ Metrics not found, cannot separate packet/non-packet units."] |},
        Ok (arange (raster_N r), arange (raster_N r)))).
Proof.
  intros Hexp. split.
  - intros ordering Hsrm Hlen Hrange Hsize.
    unfold load_unit_order, lookup_rasters. rewrite Hsrm, Hexp.
    assert (Hid : wrap32 <$> ((fun x => x - 1) <$> ordering)
                  = (fun x => x - 1) <$> ordering).
    { rewrite <- list_fmap_compose. apply list_fmap_ext. intros i x Hx. simpl.
      apply NumpyFacts.wrap32_small.
      eapply Forall_lookup_1 in Hrange; [|done]. simpl in Hrange.
      change (2 ^ 31) with 2147483648 in *. lia. }
    destruct (NumpyFacts.setitem_in_range
                (zeros_like (np_int32 ((fun x => x - 1) <$> ordering)))
                (data (np_int32 ((fun x => x - 1) <$> ordering)))
                (data (arange (raster_N r)))) as [updated Hset].
    { cbn [data np_int32 arange].
      by rewrite !length_fmap, length_seq, Hlen. }
    { cbn [data np_int32 zeros_like]. rewrite length_replicate, Hid.
      rewrite length_fmap, Hlen.
      apply Forall_fmap. eapply Forall_impl; [exact Hrange|].
      intros x Hx. unfold compose. cbv beta in Hx |- *. lia. }
    unfold bind, ret, lift_result. cbn [fst]. rewrite Hset.
    unfold np_int32. rewrite Hid. eauto.
  - intros Hsrm. unfold load_unit_order, lookup_rasters. rewrite Hsrm, Hexp.
    unfold bind, ret, lift_result, print, emit, modify. cbn [fst snd].
    by rewrite NumpyFacts.setitem_identity.
Qed.

(** C8.  Whenever the ordering that [load_unit_order] settles on is a
    permutation of [0 .. N-1] (the identity fallback always is), the
    function returns, and the second array undoes the first:
    [inverse_unit_order[unit_order[i]] = i] for every position [i]. *)
Theorem inverse_unit_order_inverts (rasters : rasters_dict) (exp : string)
    (r : Raster) (models : list (option Model)) (s : state) :
  rasters !! exp = Some (r, models) ->
  (forall ordering : list Z,
     load_metrics exp = Some ordering ->
     data (np_int32 ((fun x => x - 1) <$> ordering))
       ≡ₚ data (arange (raster_N r))) ->
  exists (s' : state) (unit_order inverse_unit_order : ndarray),
    load_unit_order rasters exp s = (s', Ok (unit_order, inverse_unit_order)) /\
    data unit_order ≡ₚ data (arange (raster_N r)) /\
    forall (i : nat) (u : Z),
      data unit_order !! i = Some u ->
      item inverse_unit_order u = Some (Z.of_nat i).
Proof.
  intros Hexp Hperm.
  unfold load_unit_order, lookup_rasters. rewrite Hexp.
  destruct (load_metrics exp) as [ordering|] eqn:Hsrm.
  - specialize (Hperm ordering eq_refl).
    set (unit_order := np_int32 ((fun x => x - 1) <$> ordering)) in *.
    destruct (NumpyFacts.setitem_zeros_like_permutation unit_order
                (raster_N r) Hperm) as (inverse & Hset & _ & _ & Hinv).
    { intros i Hi. simpl. apply NumpyFacts.wrap32_small.
      assert (Z.of_nat (raster_N r - 1) ∈ data unit_order) as Hlast.
      { rewrite Hperm, arange_data. apply list_elem_of_fmap_2, elem_of_seq. lia. }
      unfold unit_order in Hlast. cbn [data np_int32] in Hlast.
      apply list_elem_of_fmap in Hlast as (z & Hz & _).
      pose proof (NumpyFacts.wrap32_range z). lia. }
    unfold bind, ret, lift_result. cbn [fst snd]. rewrite Hset. eauto 10.
  - destruct (NumpyFacts.setitem_zeros_like_permutation
                (arange (raster_N r)) (raster_N r))
      as (inverse & Hset & _ & _ & Hinv); [done | done |].
    unfold bind, ret, lift_result, print, emit, modify. cbn [fst snd].
    rewrite Hset. eauto 10.
Qed.

End Script.

Lemma three_ints_spec_witness :
  three_ints numeral "1,2,30" = Ok [0; 1; 29] /\
  three_ints numeral "1,2" = Raise ValueError /\
  three_ints numeral "1,x,3" = Raise ValueError.
Proof.
  split; [|split].
  - apply (three_ints_spec numeral "1,2,30").
    by exists "1", "2", "30", 1, 2, 30.
  - destruct (three_ints numeral "1,2") as [l|e] eqn:H; [done|].
    by rewrite (proj2 (three_ints_spec numeral "1,2") e H).
  - destruct (three_ints numeral "1,x,3") as [l|e] eqn:H; [done|].
    by rewrite (proj2 (three_ints_spec numeral "1,x,3") e H).
Defined.

(** The pattern "e9" against the experiments "e1" and "e2". *)
Lemma no_base_experiment_exits_witness :
  @main Demo.world Demo.args_no_base Demo.start =
    (@Build_state Demo.world Demo.cache_without_15 tt
       [Stderr "Invalid experiment e9 doesn't match any of [e1, e2]"],
     Raise (SystemExit 1)).
Proof.
  apply (@no_base_experiment_exits Demo.world Demo.args_no_base Demo.start).
  reflexivity.
Defined.

(** The other mode of the handle does compute: with [recompute_ok] the
    absent key goes to the Fitter and then into the cache. *)
Lemma recompute_ok_invokes_fitter :
  let k := sweep_key "A" "e1" 15 in
  let run := @new_Model Demo.world k true Demo.start in
  out (fst run) = [EvLookup k; EvFit k; EvStore k] /\
  cache (fst run) !! k = Some 15 /\
  match snd run with
  | Ok m => _hmm m = Some 15
  | Raise _ => False
  end.
Proof. by vm_compute. Qed.

(** C4.  The sweep for "e1" with every model cached but the one with 15
    states: the missing model is reported, but its handle is among the
    eleven that [good_models] returns, with [_hmm] at [None] and no
    entropy, the statistics of lines 94-98 read its entropy all the
    same, and the script ends in an AttributeError. *)
Theorem missing_model_reaches_aggregation :
  let run := for_fold (@load_experiment Demo.world "A") ["e1"] ∅ Demo.start in
  exists (rasters : gmap string (nat * list (option (@Model Demo.world))))
         (good : list (@Model Demo.world)) (m : @Model Demo.world),
    snd run = Ok rasters /\
    In (Stdout "No model for e1 with 15 states!") (out (fst run)) /\
    @good_models Demo.world rasters "e1" = Ok good /\
    length good = 11%nat /\
    good !! 5%nat = Some m /\
    model_key m = sweep_key "A" "e1" 15 /\
    _hmm m = None /\
    mean_entropy m = None /\
    @aggregate Demo.world rasters
      {| entropies := ∅; entropy_means := ∅; baselines := ∅;
         baseline_std := ∅ |} "e1" = Raise AttributeError /\
    snd (@main Demo.world Demo.args_e1 Demo.start) = Raise AttributeError.
Proof.
  intros run. subst run.
  eexists _, _, _. split; [vm_compute; reflexivity|].
  split; [vm_compute; tauto|].
  split; [vm_compute; reflexivity|].
  split; [reflexivity|].
  split; [reflexivity|].
  split_and!; by vm_compute.
Qed.

(** Metrics for "e1", none for "e2". *)
Lemma load_unit_order_selects_witness :
  (exists inverse,
     @load_unit_order Demo.world {["e1" := (3%nat, [])]} "e1" Demo.start =
       (Demo.start, Ok (NdArray int32 [2; 0; 1], inverse))) /\
  @load_unit_order Demo.world {["e2" := (3%nat, [])]} "e2" Demo.start =
    (@Build_state Demo.world Demo.cache_without_15 tt
       [Stdout "⚠ Metrics not found, cannot separate packet/non-packet units."],
     Ok (arange 3, arange 3)).
Proof.
  split.
  - destruct (@load_unit_order_selects Demo.world {["e1" := (3%nat, [])]}
                "e1" 3%nat [] Demo.start (lookup_singleton_eq _ _)) as [Hsome _].
    apply (Hsome [3; 1; 2]); [reflexivity | reflexivity | | done].
    repeat constructor; done.
  - destruct (@load_unit_order_selects Demo.world {["e2" := (3%nat, [])]}
                "e2" 3%nat [] Demo.start (lookup_singleton_eq _ _)) as [_ Hnone].
    apply Hnone. reflexivity.
Defined.

Lemma inverse_unit_order_inverts_witness :
  exists (s' : @state Demo.world) (unit_order inverse_unit_order : ndarray),
    @load_unit_order Demo.world {["e1" := (3%nat, [])]} "e1" Demo.start
    = (s', Ok (unit_order, inverse_unit_order)) /\
    data unit_order ≡ₚ data (arange 3) /\
    forall (i : nat) (u : Z),
      data unit_order !! i = Some u ->
      item inverse_unit_order u = Some (Z.of_nat i).
Proof.
  apply (@inverse_unit_order_inverts Demo.world {["e1" := (3%nat, [])]}
           "e1" 3%nat [] Demo.start (lookup_singleton_eq _ _)).
  intros ordering [= <-].
  change ([2; 0; 1] ≡ₚ [0; 1; 2]).
  apply (Permutation_cons_append [0; 1] 2).
Defined.

End GenericFigureFacts.
